(** * go-escpos: the ESC/POS command encoder of [epson.go]

    A shallow embedding of the printer facade ([Printer] and its methods)
    and of the byte sequences it hands to the transport.  Go strings and
    byte slices are lists of bytes, a byte is an integer in [0, 256), Go's
    [int] is [Z], and every method is a state-passing function over a
    [World] that records each call made on the connection. *)

From Stdlib Require Import ZArith List Bool Lia String Ascii DecimalString.
Import ListNotations.
Local Open Scope Z_scope.

(** ** Bytes and strings *)

Definition byte := Z.

(** A Go [string] is an immutable sequence of bytes (not of runes);
    [[]byte(s)] and [string(b)] keep the bytes as they are. *)
Definition gostring := list byte.

Definition byte_of_ascii (a : ascii) : byte := Z.of_N (N_of_ascii a).

(** The bytes of an ASCII literal, to write Go literals such as ["12345678"]. *)
Definition lit (s : string) : gostring := map byte_of_ascii (list_ascii_of_string s).

(** [len(s)] *)
Definition len (s : gostring) : Z := Z.of_nat (List.length s).

(** Conversion to [uint8]: the low eight bits. *)
Definition uint8 (x : Z) : byte := x mod 256.

Fixpoint gostring_eqb (a b : gostring) : bool :=
  match a, b with
  | [], [] => true
  | x :: a', y :: b' => (x =? y) && gostring_eqb a' b'
  | _, _ => false
  end.

(** ** The formatting verbs of [fmt.Sprintf] that the encoder uses *)

Module Fmt.

Definition RuneError : Z := 0xFFFD.
Definition MaxRune : Z := 0x10FFFF.

(** [utf8.AppendRune] on an empty buffer: the UTF-8 encoding of rune [r],
    with the encoding of [RuneError] for surrogates and values out of
    range. *)
Definition AppendRune (r : Z) : list byte :=
  if (0 <=? r) && (r <=? 0x7F) then [r]
  else if (0 <=? r) && (r <=? 0x7FF) then
    [Z.lor 0xC0 (Z.shiftr r 6); Z.lor 0x80 (Z.land r 0x3F)]
  else if (r <? 0) || (MaxRune <? r) || ((0xD800 <=? r) && (r <=? 0xDFFF)) then
    [0xEF; 0xBF; 0xBD]
  else if r <=? 0xFFFF then
    [Z.lor 0xE0 (Z.shiftr r 12);
     Z.lor 0x80 (Z.land (Z.shiftr r 6) 0x3F);
     Z.lor 0x80 (Z.land r 0x3F)]
  else
    [Z.lor 0xF0 (Z.shiftr r 18);
     Z.lor 0x80 (Z.land (Z.shiftr r 12) 0x3F);
     Z.lor 0x80 (Z.land (Z.shiftr r 6) 0x3F);
     Z.lor 0x80 (Z.land r 0x3F)].

(** [%c] applied to an integer: the integer is taken as a [uint64], a
    value above [MaxRune] becomes [RuneError], and the rune is appended
    in UTF-8.  A value below 128 yields that one byte; a value in
    [128, 255] yields two bytes. *)
Definition c (v : Z) : gostring :=
  let u := v mod 2 ^ 64 in
  AppendRune (if MaxRune <? u then RuneError else u).

(** [%d], and [%v] applied to an integer: the decimal digits, with a
    leading minus sign for a negative value. *)
Definition d (v : Z) : gostring := lit (NilZero.string_of_int (Z.to_int v)).

(** [%s], and [%v] applied to a string: the bytes of the string. *)
Definition s (x : gostring) : gostring := x.

End Fmt.

(** ** The transport and the world around the printer *)

(** A Go [error] value; [None] is [nil]. *)
Definition error := string.

(** Everything a method call can touch: the connection [p.s] (the [Write]
    and [Read] calls issued on it so far, and how the device answers the
    next ones), the optional file handle [p.f], and the package-level
    character converter. *)
Record World := mkWorld {
  wlog : list (list byte);            (* arguments of the p.s.Write calls, oldest first *)
  rlog : list nat;                    (* buffer lengths of the p.s.Read calls, oldest first *)
  dlog : nat;                         (* number of p.f.SetWriteDeadline calls *)
  elog : list (list byte);            (* arguments of the converter.Encode calls *)
  has_f : bool;                       (* p.f != nil *)
  wres : nat -> option error;         (* error returned by the k-th Write call *)
  rres : nat -> list byte * option error  (* bytes delivered and error of the k-th Read call *)
}.

(** Computations over the world. *)
Definition M (A : Type) : Type := World -> A * World.

Definition ret {A} (a : A) : M A := fun w => (a, w).

Definition bind {A B} (m : M A) (k : A -> M B) : M B :=
  fun w => let (a, w') := m w in k a w'.

Notation "x <- m ;; k" := (bind m (fun x => k))
  (at level 61, m at next level, right associativity).
Notation "m ;;; k" := (bind m (fun _ => k))
  (at level 61, right associativity).

(** [if err != nil { return err }] followed by the rest of the body. *)
Definition check {A} (err : option error) (zero : option error -> A) (k : M A) : M A :=
  match err with
  | Some e => ret (zero (Some e))
  | None => k
  end.

(** [p.s.Write(data)]; the byte count it returns is dropped by every caller. *)
Definition s_Write (data : list byte) : M (option error) :=
  fun w =>
    (wres w (List.length (wlog w)),
     mkWorld (wlog w ++ [data]) (rlog w) (dlog w) (elog w) (has_f w) (wres w) (rres w)).

(** [p.s.Read(buf)]: the device delivers some bytes, which overwrite the
    front of the buffer, and possibly an error. *)
Definition s_Read (buf : list byte) : M (list byte * option error) :=
  fun w =>
    let (dv, err) := rres w (List.length (rlog w)) in
    let n := Nat.min (List.length buf) (List.length dv) in
    ((firstn n dv ++ skipn n buf, err),
     mkWorld (wlog w) (rlog w ++ [List.length buf]) (dlog w) (elog w) (has_f w) (wres w) (rres w)).

(** [p.f.SetWriteDeadline(...)], guarded by [p.f != nil]. *)
Definition setDeadline : M unit :=
  fun w =>
    if has_f w
    then (tt, mkWorld (wlog w) (rlog w) (S (dlog w)) (elog w) (has_f w) (wres w) (rres w))
    else (tt, w).

(** The [Write] calls issued between two worlds. *)
Definition issued (w w' : World) : list (list byte) :=
  skipn (List.length (wlog w)) (wlog w').

(** The [Read] calls issued between two worlds. *)
Definition reads (w w' : World) : list nat :=
  skipn (List.length (rlog w)) (rlog w').

(** [WriteBytes] *)
Definition WriteBytes (data : list byte) : M (option error) :=
  setDeadline ;;;
  s_Write data.

(** Modelled from the spec: [write], the unexported method every directive
    ends in, is declared in another file of the package.  The transport adapter
    "exposes write(bytes)" and "an optional write deadline may be applied
    to each write": one [Write] call of the bytes of the command string,
    as [WriteBytes] does for a byte slice. *)
Definition write (cmd : gostring) : M (option error) :=
  setDeadline ;;;
  s_Write cmd.

(** ** Directives that do not convert text *)

(** [Size] *)
Definition Size_byte (width height : byte) : byte :=
  Z.lor (uint8 (Z.shiftl (uint8 (width - 1)) 4)) (uint8 (height - 1)).

Definition Size (width height : byte) : M (option error) :=
  write ([0x1D; 0x21] ++ Fmt.c (Size_byte width height)).

(** [PrintAreaWidth] *)
Definition PrintAreaWidth (width : Z) : M (option error) :=
  let '(nh, nl) :=
    if width <? 256
    then (0, uint8 width)
    else (uint8 (Z.quot width 256), uint8 (Z.rem width 256)) in
  write ([0x1D; 0x57] ++ Fmt.c nl ++ Fmt.c nh).

Definition twoDbar : gostring := [0x1d; 0x28; 0x6b].

(** [twodimensionBarcode]: the result of each [write] is dropped. *)
Definition twodimensionBarcode (codetype code : gostring) (size : Z) : M (option error) :=
  let size := if (size <? 2) || (size >? 16) then 3 else size in
  write (twoDbar ++ [0x03; 0x00] ++ codetype ++ [0x43] ++ Fmt.c size) ;;;
  (if gostring_eqb codetype [0x31]
   then write (twoDbar ++ [0x03; 0x00] ++ codetype ++ [0x45; 0x30; 0x0A])
   else ret None) ;;;
  let codePL := len code + 3 in
  let codePH := Z.quot codePL 256 in
  let codePL := Z.rem codePL 256 in
  write (twoDbar ++ (Fmt.c codePL ++ Fmt.c codePH) ++ codetype ++ [0x50; 0x30] ++ code) ;;;
  write (twoDbar ++ [0x03; 0x00] ++ codetype ++ [0x51; 0x30; 0x0A]) ;;;
  ret None.

Definition QR (code : gostring) (size : Z) : M (option error) :=
  twodimensionBarcode [0x31] code size.

Definition PDF417 (code : gostring) (size : Z) : M (option error) :=
  twodimensionBarcode [0x30] code size.

Definition Aztec (code : gostring) (size : Z) : M (option error) :=
  twodimensionBarcode [0x35] code size.

Definition DataMatrix (code : gostring) (size : Z) : M (option error) :=
  twodimensionBarcode [0x36] code size.

(** [ErrorStatus] is the status byte as the device sent it. *)
Definition ErrorStatus := byte.

(** [GetErrorStatus] *)
Definition GetErrorStatus : M (ErrorStatus * option error) :=
  err <- s_Write [0x10; 0x04; 0x02] ;;
  check err (fun e => (0, e)) (
    let data := [0] in
    r <- s_Read data ;;
    let (data, err) := r in
    check err (fun e => (0, e)) (
      ret (nth 0 data 0, None))).

(** [SetCharacterSet] of epson.go: [n] is a [uint8]. *)
Definition SetCharacterSet (n : byte) : M (option error) :=
  let bytes := [0x1B; 0x52; n] in
  WriteBytes bytes.

(** [SetCharacterSet] of the second variant of the file: [n] is an [int],
    formatted with [%d]. *)
Definition SetCharacterSet_part_000 (n : Z) : M (option error) :=
  write ([0x1B; 0x52] ++ Fmt.d n).

(** [SetDoubleHeight] *)
Definition SetDoubleHeight (doubleHeight : bool) : M (option error) :=
  if doubleHeight
  then let bytes := [0x1C; 0x21; 0x08] in WriteBytes bytes
  else let bytes := [0x1C; 0x21; 0x00] in WriteBytes bytes.

(** [SetDoubleWidth] *)
Definition SetDoubleWidth (doubleWidth : bool) : M (option error) :=
  if doubleWidth
  then let bytes := [0x1C; 0x21; 0x04] in WriteBytes bytes
  else let bytes := [0x1C; 0x21; 0x00] in WriteBytes bytes.

(** ** Worlds to run the encoder in *)

(** A fresh printer made by [NewPrinterByRW] (no file handle) on a device
    that accepts every write and answers every read with [answer]. *)
Definition healthy (answer : list byte) : World :=
  mkWorld [] [] 0 [] false (fun _ => None) (fun _ => (answer, None)).

(** The same, on a connection whose [k]-th write (from 0) fails with [e]. *)
Definition failing_write (k : nat) (e : error) : World :=
  mkWorld [] [] 0 [] false
          (fun i => if Nat.eqb i k then Some e else None)
          (fun _ => ([], None)).

(** The same, on a connection whose reads fail with [e]. *)
Definition failing_read (e : error) : World :=
  mkWorld [] [] 0 [] false (fun _ => None) (fun _ => ([], Some e)).

(** ** Text printing and the one-dimensional barcode *)

(** [BarcodeType]: the constants the [switch] of [Barcode] lists.  On them
    its [default] branch, which panics, is never taken. *)
Inductive BarcodeType :=
| BarcodeTypeUPCA
| BarcodeTypeUPCE
| BarcodeTypeEAN13
| BarcodeTypeEAN8
| BarcodeTypeCODE39
| BarcodeTypeITF
| BarcodeTypeCODABAR
| BarcodeTypeCODE128.

Section Text.

(** The package-level [converter] (a [characterConverter]) and
    [textReplace] are declared in another file of the package: the encoder is
    verified for every converter and every substitution pass. *)
Variable Encode : list byte -> list byte * Z * option error.
Variable textReplace : gostring -> gostring.

(** Modelled from the spec: the declaration of [BarcodeType] and of its
    constants is in another file of the package; each type "maps to a one-byte
    protocol identifier", which [%s] prints as it is.  The identifiers
    stay a parameter. *)
Variable BarcodeType_id : BarcodeType -> byte.

(** [converter.Encode(utf_8)], recorded in the world. *)
Definition converter_Encode (utf_8 : list byte) : M (list byte * Z * option error) :=
  fun w =>
    (Encode utf_8,
     mkWorld (wlog w) (rlog w) (dlog w) (elog w ++ [utf_8]) (has_f w) (wres w) (rres w)).

(** [Print] *)
Definition Print (data : gostring) : M (option error) :=
  if gostring_eqb data []
  then ret None
  else
    r <- converter_Encode data ;;
    let '(b, _, err) := r in
    check err (fun e => e) (
      let data := b in
      let data := textReplace data in
      write data).

(** [PrintLn] *)
Definition PrintLn (data : gostring) : M (option error) :=
  err <- Print data ;;
  check err (fun e => e) (
    write [0x0A]).

(** [Barcode] *)
Definition Barcode (barcode : gostring) (format : BarcodeType) : M (option error) :=
  err <- write [0x1d; 0x77; 0x04; 0x1d; 0x68; 0x64] ;;
  check err (fun e => e) (
    err <- write [0x1d; 0x66; 0x00] ;;
    check err (fun e => e) (
      err <- match format with
             | BarcodeTypeUPCA
             | BarcodeTypeUPCE
             | BarcodeTypeEAN13
             | BarcodeTypeEAN8
             | BarcodeTypeCODE39
             | BarcodeTypeITF
             | BarcodeTypeCODABAR =>
                 write ([0x1d; 0x6b] ++ Fmt.s [BarcodeType_id format]
                          ++ Fmt.s barcode ++ [0x00])
             | BarcodeTypeCODE128 =>
                 write ([0x1d; 0x6b] ++ Fmt.s [BarcodeType_id format]
                          ++ Fmt.d (len barcode) ++ Fmt.s barcode ++ [0x00])
             end ;;
      check err (fun e => e) (
        PrintLn barcode))).

End Text.

(** ** What the claims compare the encoder with *)

(** The frame the protocol asks of a barcode with an explicit length: the
    type, one length byte, the payload, no terminator. *)
Definition length_prefixed_frame (id : byte) (barcode : gostring) : list byte :=
  [0x1d; 0x6b; id] ++ [len barcode] ++ barcode.

(** The frame of a null-terminated barcode. *)
Definition null_terminated_frame (id : byte) (barcode : gostring) : list byte :=
  [0x1d; 0x6b; id] ++ barcode ++ [0x00].

(** A length as two bytes, low byte first. *)
Definition le16 (n : Z) : list byte := [n mod 256; n / 256].

(** The sub-frames of a two-dimensional symbol. *)
Definition size_frame (codetype : gostring) (size : Z) : list byte :=
  twoDbar ++ [0x03; 0x00] ++ codetype ++ [0x43; size].

Definition ecc_frame (codetype : gostring) : list byte :=
  twoDbar ++ [0x03; 0x00] ++ codetype ++ [0x45; 0x30; 0x0A].

Definition store_frame (codetype code : gostring) : list byte :=
  twoDbar ++ le16 (len code + 3) ++ codetype ++ [0x50; 0x30] ++ code.

Definition print_frame (codetype : gostring) : list byte :=
  twoDbar ++ [0x03; 0x00] ++ codetype ++ [0x51; 0x30; 0x0A].

Definition is_symbology (codetype : gostring) : Prop :=
  In codetype [[0x31]; [0x30]; [0x35]; [0x36]].

(** The size the builder uses. *)
Definition clamp_size (size : Z) : Z :=
  if (size <? 2) || (size >? 16) then 3 else size.

(** The payload frame of [Barcode], by type: the decimal digits of the
    length, the payload and a null byte after the type for CODE128; the
    payload and a null byte for every other type. *)
Definition Barcode_payload (id : BarcodeType -> byte)
           (barcode : gostring) (format : BarcodeType) : list byte :=
  match format with
  | BarcodeTypeCODE128 =>
      [0x1d; 0x6b; id format] ++ Fmt.d (len barcode) ++ barcode ++ [0x00]
  | _ => null_terminated_frame (id format) barcode
  end.

(** The integers [lo], [lo + 1], ..., [lo + n - 1]. *)
Definition Zrange (lo : Z) (n : nat) : list Z :=
  map (fun i => lo + Z.of_nat i) (seq 0 n).

(** ** The remaining directives *)

(** [Init] *)
Definition Init : M (option error) :=
  err <- write [0x1B; 0x40] ;;
  check err (fun e => e) (
    write ([0x1B; 0x74] ++ Fmt.c 40)).

(** [Feed] *)
Definition Feed (n : Z) : M (option error) :=
  write ([0x1B; 0x64] ++ Fmt.c n).

(** Modelled from the spec: the type [Font] is declared in another file of
    the package; it is an enumeration "mapped to a single-byte code", an
    integer that [%c] formats as a rune. *)
Definition Font (font : byte) : M (option error) :=
  write ([0x1B; 0x4D] ++ Fmt.c font).

(** [Underline] *)
Definition Underline (enabled : bool) : M (option error) :=
  if enabled
  then write ([0x1B; 0x2D] ++ Fmt.c 1)
  else write ([0x1B; 0x2D] ++ Fmt.c 0).

(** [Smooth] *)
Definition Smooth (enabled : bool) : M (option error) :=
  if enabled
  then write ([0x1D; 0x62] ++ Fmt.c 1)
  else write ([0x1D; 0x62] ++ Fmt.c 0).

(** Modelled from the spec: the type [Alignment] is declared in another
    file of the package; it is an enumeration "mapped to a single-byte code
    0/1/2", an integer that [%c] formats as a rune. *)
Definition Align (align : byte) : M (option error) :=
  write ([0x1B; 0x61] ++ Fmt.c align).

(** [SetInit] *)
Definition SetInit : M (option error) :=
  let bytes := [0x1B; 0x40] in
  WriteBytes bytes.

(** [SetUnderline] *)
Definition SetUnderline (underline : bool) : M (option error) :=
  if underline
  then let bytes := [0x1C; 0x2D; 1] in WriteBytes bytes
  else let bytes := [0x1C; 0x2D; 0] in WriteBytes bytes.

(** [SetBold] *)
Definition SetBold (bold : bool) : M (option error) :=
  if bold
  then let bytes := [0x1B; 0x45; 0x01] in WriteBytes bytes
  else let bytes := [0x1B; 0x45; 0x00] in WriteBytes bytes.

(** [PrintLine] *)
Definition PrintLine : M (option error) :=
  let bytes := [0x0A] in
  WriteBytes bytes.

Section Chinese.

(** [transform.Bytes] with the GBK encoder of golang.org/x/text: the
    encoded bytes, the number of source bytes consumed and an error.  The
    library is not part of the package; the method is verified for every
    encoder. *)
Variable gbkBytes : list byte -> list byte * Z * option error.

(** [WriteChineseString] *)
Definition WriteChineseString (str : gostring) : M (option error) :=
  let '(result, _, err) := gbkBytes str in
  check err (fun e => e) (
    err <- WriteBytes result ;;
    ret err).

End Chinese.

(** ** Converters and identifiers to run the examples with *)

(** A converter that keeps every byte. *)
Definition keep_bytes (b : list byte) : list byte * Z * option error :=
  (b, len b, None).

(** The error of a converter that cannot represent a character. *)
Definition unsupported : error := "unsupported character"%string.

(** A converter that rejects every text. *)
Definition reject_bytes (e : error) (b : list byte) : list byte * Z * option error :=
  ([], 0, Some e).

(** The ESC/POS identifiers of the barcode types. *)
Definition escpos_id (format : BarcodeType) : byte :=
  match format with
  | BarcodeTypeUPCA => 0x00
  | BarcodeTypeUPCE => 0x01
  | BarcodeTypeEAN13 => 0x02
  | BarcodeTypeEAN8 => 0x03
  | BarcodeTypeCODE39 => 0x04
  | BarcodeTypeITF => 0x05
  | BarcodeTypeCODABAR => 0x06
  | BarcodeTypeCODE128 => 0x49
  end.

(** A world that differs from a fresh one only in having a file handle. *)
Definition with_file (w : World) : World :=
  mkWorld (wlog w) (rlog w) (dlog w) (elog w) true (wres w) (rres w).

(** ** Basic facts about the world *)

Lemma skipn_length_app {A} (l l' : list A) : skipn (List.length l) (l ++ l') = l'.
Proof. induction l as [|a l IH]; simpl; auto. Qed.

Lemma issued_app (w w' : World) (fs : list (list byte)) :
  wlog w' = wlog w ++ fs -> issued w w' = fs.
Proof. unfold issued; intros ->; apply skipn_length_app. Qed.

Lemma reads_app (w w' : World) (ns : list nat) :
  rlog w' = rlog w ++ ns -> reads w w' = ns.
Proof. unfold reads; intros ->; apply skipn_length_app. Qed.

Lemma issued_refl (w : World) : issued w w = [].
Proof. unfold issued; apply skipn_all. Qed.

Lemma reads_refl (w : World) : reads w w = [].
Proof. unfold reads; apply skipn_all. Qed.

(** One [write] is one [Write] call of the command's bytes; its result is
    what the connection answers to that call. *)
Lemma write_wlog (cmd : gostring) (w : World) :
  wlog (snd (write cmd w)) = wlog w ++ [cmd].
Proof. unfold write, bind, setDeadline, s_Write; destruct (has_f w); reflexivity. Qed.

Lemma write_fst (cmd : gostring) (w : World) :
  fst (write cmd w) = wres w (List.length (wlog w)).
Proof. unfold write, bind, setDeadline, s_Write; destruct (has_f w); reflexivity. Qed.

Lemma write_frame (cmd : gostring) (w : World) :
  wres (snd (write cmd w)) = wres w /\ rres (snd (write cmd w)) = rres w
  /\ rlog (snd (write cmd w)) = rlog w /\ elog (snd (write cmd w)) = elog w
  /\ has_f (snd (write cmd w)) = has_f w.
Proof.
  unfold write, bind, setDeadline, s_Write.
  destruct (has_f w) eqn:E; simpl; rewrite ?E;
    repeat (split; [reflexivity|]); reflexivity.
Qed.

Lemma WriteBytes_write (data : list byte) : WriteBytes data = write data.
Proof. reflexivity. Qed.

(** [write] in closed form. *)
Lemma write_eq (cmd : gostring) (w : World) :
  write cmd w =
  (wres w (List.length (wlog w)),
   mkWorld (wlog w ++ [cmd]) (rlog w) (if has_f w then S (dlog w) else dlog w)
           (elog w) (has_f w) (wres w) (rres w)).
Proof.
  unfold write, bind, setDeadline, s_Write.
  destruct w as [wl rl dl el hf wr rr]; destruct hf; reflexivity.
Qed.

(** Run the next [write] of a chain symbolically. *)
Ltac step :=
  rewrite write_eq;
  cbn [fst snd wlog rlog dlog elog has_f wres rres].

Ltac run_writes := unfold bind, ret, check; repeat step.

(** ** The [%c] verb *)

Lemma Fmt_c_ascii (v : Z) : 0 <= v < 128 -> Fmt.c v = [v].
Proof.
  intros Hv. unfold Fmt.c.
  rewrite Z.mod_small by lia.
  replace (Fmt.MaxRune <? v) with false
    by (symmetry; apply Z.ltb_ge; unfold Fmt.MaxRune; lia).
  unfold Fmt.AppendRune.
  replace (0 <=? v) with true by (symmetry; apply Z.leb_le; lia).
  replace (v <=? 0x7F) with true by (symmetry; apply Z.leb_le; lia).
  reflexivity.
Qed.

(** A value in [128, 255] comes out as two bytes. *)
Lemma Fmt_c_high (v : Z) : 128 <= v < 256 -> List.length (Fmt.c v) = 2%nat.
Proof.
  intros Hv. unfold Fmt.c.
  rewrite Z.mod_small by lia.
  replace (Fmt.MaxRune <? v) with false
    by (symmetry; apply Z.ltb_ge; unfold Fmt.MaxRune; lia).
  unfold Fmt.AppendRune.
  replace (v <=? 0x7F) with false by (symmetry; apply Z.leb_gt; lia).
  replace (0 <=? v) with true by (symmetry; apply Z.leb_le; lia).
  replace (v <=? 0x7FF) with true by (symmetry; apply Z.leb_le; lia).
  reflexivity.
Qed.

(** ** Two-dimensional symbols *)

(** What [twodimensionBarcode] hands to the connection, whatever the
    connection answers: the size sub-frame, for QR the error-correction
    sub-frame, the store sub-frame and the print sub-frame; and it
    returns [nil]. *)
Lemma twodimensionBarcode_run (codetype code : gostring) (size : Z) (w : World) :
  fst (twodimensionBarcode codetype code size w) = None /\
  issued w (snd (twodimensionBarcode codetype code size w)) =
    [twoDbar ++ [0x03; 0x00] ++ codetype ++ [0x43] ++ Fmt.c (clamp_size size)]
    ++ (if gostring_eqb codetype [0x31] then [ecc_frame codetype] else [])
    ++ [twoDbar ++ (Fmt.c (Z.rem (len code + 3) 256) ++ Fmt.c (Z.quot (len code + 3) 256))
          ++ codetype ++ [0x50; 0x30] ++ code;
        print_frame codetype].
Proof.
  unfold twodimensionBarcode, clamp_size, ecc_frame, print_frame.
  destruct (gostring_eqb codetype [0x31]); run_writes; split; auto;
    apply issued_app; cbn [wlog]; rewrite <- ?app_assoc; reflexivity.
Qed.

(** A size outside [2, 16] runs the builder exactly as size 3 does. *)
Lemma twodimensionBarcode_out_of_range (codetype code : gostring) (size : Z) :
  size < 2 \/ 16 < size ->
  twodimensionBarcode codetype code size = twodimensionBarcode codetype code 3.
Proof.
  intros H. unfold twodimensionBarcode.
  replace ((size <? 2) || (size >? 16)) with true; [reflexivity|].
  symmetry; apply orb_true_iff.
  destruct H; [left; apply Z.ltb_lt | right; apply Z.gtb_lt]; lia.
Qed.

Lemma clamp_size_in_range (size : Z) : 2 <= size <= 16 -> clamp_size size = size.
Proof.
  intros H. unfold clamp_size.
  replace (size <? 2) with false by (symmetry; apply Z.ltb_ge; lia).
  replace (size >? 16) with false by (rewrite Z.gtb_ltb; symmetry; apply Z.ltb_ge; lia).
  reflexivity.
Qed.

Lemma clamp_size_range (size : Z) : 2 <= clamp_size size <= 16.
Proof.
  unfold clamp_size.
  destruct (size <? 2) eqn:E1; simpl; [lia|].
  destruct (size >? 16) eqn:E2; [lia|].
  apply Z.ltb_ge in E1. rewrite Z.gtb_ltb in E2. apply Z.ltb_ge in E2. lia.
Qed.

(** The size sub-frame always carries its size as one byte. *)
Lemma twodimensionBarcode_size_frame (codetype code : gostring) (size : Z) (w : World) :
  nth_error (issued w (snd (twodimensionBarcode codetype code size w))) 0 =
  Some (size_frame codetype (clamp_size size)).
Proof.
  destruct (twodimensionBarcode_run codetype code size w) as [_ ->].
  cbn [app nth_error]. unfold size_frame.
  rewrite Fmt_c_ascii by (pose proof (clamp_size_range size); lia).
  reflexivity.
Qed.

(** The number of sub-frames: four for QR, three for the others. *)
Lemma twodimensionBarcode_count (codetype code : gostring) (size : Z) (w : World) :
  List.length (issued w (snd (twodimensionBarcode codetype code size w))) =
  if gostring_eqb codetype [0x31] then 4%nat else 3%nat.
Proof.
  destruct (twodimensionBarcode_run codetype code size w) as [_ ->].
  destruct (gostring_eqb codetype [0x31]); reflexivity.
Qed.

(** While both bytes of the length stay below 128 the store sub-frame
    carries payload length + 3 as two bytes, low byte first. *)
Lemma twodimensionBarcode_store_frame (codetype code : gostring) (size : Z) (w : World) :
  (len code + 3) mod 256 < 128 -> (len code + 3) / 256 < 128 ->
  issued w (snd (twodimensionBarcode codetype code size w)) =
    [size_frame codetype (clamp_size size)]
    ++ (if gostring_eqb codetype [0x31] then [ecc_frame codetype] else [])
    ++ [store_frame codetype code; print_frame codetype].
Proof.
  intros Hlo Hhi.
  assert (Hn : 0 <= len code + 3) by (unfold len; lia).
  destruct (twodimensionBarcode_run codetype code size w) as [_ ->].
  rewrite Z.rem_mod_nonneg, Z.quot_div_nonneg by lia.
  rewrite !Fmt_c_ascii.
  - reflexivity.
  - split; [apply Z.div_pos; lia | lia].
  - pose proof (Z.mod_pos_bound (len code + 3) 256); lia.
  - pose proof (clamp_size_range size); lia.
Qed.

(** C6 — A size outside [2, 16] is replaced by 3 without an error: the run
    of the builder, and of each of QR, PDF417, Aztec and DataMatrix, is the
    run for size 3 and returns nil, and the size sub-frame each of them
    writes first is the one of size 3; a size inside [2, 16] reaches the
    size sub-frame of each of them unchanged. *)
Theorem twodimensionBarcode_default_size
  (codetype code : gostring) (size size' : Z) (w : World)
  (Hout : size < 2 \/ 16 < size) (Hin : 2 <= size' <= 16) :
  twodimensionBarcode codetype code size w = twodimensionBarcode codetype code 3 w
  /\ QR code size w = QR code 3 w
  /\ PDF417 code size w = PDF417 code 3 w
  /\ Aztec code size w = Aztec code 3 w
  /\ DataMatrix code size w = DataMatrix code 3 w
  /\ fst (twodimensionBarcode codetype code size w) = None
  /\ nth_error (issued w (snd (twodimensionBarcode codetype code size w))) 0
     = Some (size_frame codetype 3)
  /\ nth_error (issued w (snd (twodimensionBarcode codetype code size' w))) 0
     = Some (size_frame codetype size')
  /\ (fst (QR code size w) = None
      /\ nth_error (issued w (snd (QR code size w))) 0 = Some (size_frame [0x31] 3)
      /\ nth_error (issued w (snd (QR code 3 w))) 0 = Some (size_frame [0x31] 3)
      /\ nth_error (issued w (snd (QR code size' w))) 0 = Some (size_frame [0x31] size'))
  /\ (fst (PDF417 code size w) = None
      /\ nth_error (issued w (snd (PDF417 code size w))) 0 = Some (size_frame [0x30] 3)
      /\ nth_error (issued w (snd (PDF417 code 3 w))) 0 = Some (size_frame [0x30] 3)
      /\ nth_error (issued w (snd (PDF417 code size' w))) 0
         = Some (size_frame [0x30] size'))
  /\ (fst (Aztec code size w) = None
      /\ nth_error (issued w (snd (Aztec code size w))) 0 = Some (size_frame [0x35] 3)
      /\ nth_error (issued w (snd (Aztec code 3 w))) 0 = Some (size_frame [0x35] 3)
      /\ nth_error (issued w (snd (Aztec code size' w))) 0
         = Some (size_frame [0x35] size'))
  /\ (fst (DataMatrix code size w) = None
      /\ nth_error (issued w (snd (DataMatrix code size w))) 0
         = Some (size_frame [0x36] 3)
      /\ nth_error (issued w (snd (DataMatrix code 3 w))) 0 = Some (size_frame [0x36] 3)
      /\ nth_error (issued w (snd (DataMatrix code size' w))) 0
         = Some (size_frame [0x36] size')).
Proof.
  assert (Hentry : forall cn,
    fst (twodimensionBarcode cn code size w) = None
    /\ nth_error (issued w (snd (twodimensionBarcode cn code size w))) 0
       = Some (size_frame cn 3)
    /\ nth_error (issued w (snd (twodimensionBarcode cn code 3 w))) 0
       = Some (size_frame cn 3)
    /\ nth_error (issued w (snd (twodimensionBarcode cn code size' w))) 0
       = Some (size_frame cn size')).
  { intros cn.
    rewrite (twodimensionBarcode_out_of_range cn code size) by assumption.
    split; [apply twodimensionBarcode_run|].
    rewrite !twodimensionBarcode_size_frame.
    rewrite (clamp_size_in_range size') by assumption.
    repeat split; reflexivity. }
  unfold QR, PDF417, Aztec, DataMatrix.
  split; [rewrite twodimensionBarcode_out_of_range by assumption; reflexivity|].
  repeat (split; [rewrite twodimensionBarcode_out_of_range by assumption;
                  reflexivity|]).
  destruct (Hentry codetype) as (Hnil & Hout3 & _ & Hin').
  split; [exact Hnil|]. split; [exact Hout3|]. split; [exact Hin'|].
  repeat split; apply Hentry.
Qed.

Lemma twodimensionBarcode_default_size_witness :
  (1 < 2 \/ 16 < 1) /\ 2 <= 16 <= 16 /\
  QR (lit "AB") 1 (healthy []) = QR (lit "AB") 3 (healthy []) /\
  nth_error (issued (healthy []) (snd (QR (lit "AB") 16 (healthy [])))) 0
  = Some [0x1d; 0x28; 0x6b; 0x03; 0x00; 0x31; 0x43; 0x10] /\
  nth_error (issued (healthy []) (snd (PDF417 (lit "AB") 1 (healthy [])))) 0
  = Some [0x1d; 0x28; 0x6b; 0x03; 0x00; 0x30; 0x43; 0x03] /\
  nth_error (issued (healthy []) (snd (Aztec (lit "AB") 1 (healthy [])))) 0
  = Some [0x1d; 0x28; 0x6b; 0x03; 0x00; 0x35; 0x43; 0x03] /\
  nth_error (issued (healthy []) (snd (DataMatrix (lit "AB") 16 (healthy [])))) 0
  = Some [0x1d; 0x28; 0x6b; 0x03; 0x00; 0x36; 0x43; 0x10].
Proof.
  assert (H1 : 1 < 2 \/ 16 < 1) by (left; reflexivity).
  assert (H2 : 2 <= 16 <= 16) by (split; discriminate).
  split; [exact H1|]. split; [exact H2|].
  destruct (twodimensionBarcode_default_size [0x31] (lit "AB") 1 16 (healthy []) H1 H2)
    as (_ & Hqr & _ & _ & _ & _ & _ & _
        & (_ & _ & _ & Hq) & (_ & Hp & _) & (_ & Ha & _) & (_ & _ & _ & Hd)).
  split; [exact Hqr|]. split; [exact Hq|]. split; [exact Hp|].
  split; [exact Ha | exact Hd].
Defined.

(** C2 — The builder drops the result of every write: on a connection
    whose first write fails, QR still hands the three later sub-frames to
    the connection and returns nil. *)
Theorem QR_continues_after_write_error (e : error) :
  fst (write (size_frame [0x31] 3) (failing_write 0 e)) = Some e
  /\ fst (QR (lit "AB") 3 (failing_write 0 e)) = None
  /\ issued (failing_write 0 e) (snd (QR (lit "AB") 3 (failing_write 0 e))) =
     [size_frame [0x31] 3; ecc_frame [0x31];
      store_frame [0x31] (lit "AB"); print_frame [0x31]].
Proof. repeat split. Qed.

(** C5 — QR with a payload of 125 bytes: four sub-frames are written, and
    the length field of the store sub-frame, 128, takes the three bytes
    C2 80 00 instead of the two bytes 80 00. *)
Theorem QR_store_length_field_125 :
  let code := repeat 0x41 125 in
  len code + 3 = 128
  /\ issued (healthy []) (snd (QR code 3 (healthy []))) =
     [size_frame [0x31] 3; ecc_frame [0x31];
      twoDbar ++ [0xC2; 0x80; 0x00] ++ [0x31; 0x50; 0x30] ++ code;
      print_frame [0x31]]
  /\ twoDbar ++ [0xC2; 0x80; 0x00] ++ [0x31; 0x50; 0x30] ++ code
     <> store_frame [0x31] code.
Proof.
  cbv zeta. split; [reflexivity|]. split; [vm_compute; reflexivity|].
  vm_compute. discriminate.
Qed.

(** ** Checking a property on every value of a range *)

Lemma Zrange_forallb (P : Z -> bool) (lo : Z) (n : nat) :
  forallb P (Zrange lo n) = true ->
  forall x, lo <= x < lo + Z.of_nat n -> P x = true.
Proof.
  intros H x Hx. rewrite forallb_forall in H. apply H.
  unfold Zrange. apply in_map_iff.
  exists (Z.to_nat (x - lo)). split; [lia|].
  apply in_seq. lia.
Qed.

(** ** Size and print area width *)

(** The packed byte of [Size]: width - 1 in the high four bits, height - 1
    in the low four. *)
Lemma Size_byte_packs (width height : Z) :
  1 <= width <= 16 -> 1 <= height <= 16 ->
  Size_byte width height = Z.lor (Z.shiftl (width - 1) 4) (height - 1).
Proof.
  intros Hw Hh. unfold Size_byte, uint8.
  rewrite (Z.mod_small (width - 1)) by lia.
  rewrite (Z.mod_small (height - 1)) by lia.
  rewrite Z.shiftl_mul_pow2 by lia.
  rewrite Z.mod_small by (change (2 ^ 4) with 16; lia).
  reflexivity.
Qed.

Lemma Size_byte_narrow (width height : Z) :
  1 <= width <= 8 -> 1 <= height <= 16 -> 0 <= Size_byte width height < 128.
Proof.
  intros Hw Hh.
  pose (P := fun w => forallb (fun h => (0 <=? Size_byte w h) && (Size_byte w h <? 128))
                              (Zrange 1 16)).
  assert (HP : P width = true)
    by (apply (Zrange_forallb P 1 8); [vm_compute; reflexivity | lia]).
  pose proof (Zrange_forallb _ 1 16 HP height ltac:(lia)) as H.
  apply andb_true_iff in H. destruct H as [H1 H2].
  apply Z.leb_le in H1. apply Z.ltb_lt in H2. lia.
Qed.

(** For a width of at most 8 the frame of [Size] is the three bytes
    1D 21 b. *)
Lemma Size_three_bytes (width height : Z) (w : World) :
  1 <= width <= 8 -> 1 <= height <= 16 ->
  issued w (snd (Size width height w)) = [[0x1D; 0x21; Size_byte width height]].
Proof.
  intros Hw Hh. unfold Size. rewrite write_eq. cbn [snd].
  apply issued_app. cbn [wlog].
  rewrite Fmt_c_ascii by (apply Size_byte_narrow; assumption).
  reflexivity.
Qed.

(** For a width from 9 on the packed byte is 128 or more and the frame has
    four bytes. *)
Lemma Size_four_bytes (width height : Z) (w : World) :
  9 <= width <= 16 -> 1 <= height <= 16 ->
  exists b1 b2, issued w (snd (Size width height w)) = [[0x1D; 0x21; b1; b2]].
Proof.
  intros Hw Hh.
  pose (P := fun w => forallb (fun h => (128 <=? Size_byte w h) && (Size_byte w h <? 256))
                              (Zrange 1 16)).
  assert (HP : P width = true)
    by (apply (Zrange_forallb P 9 8); [vm_compute; reflexivity | lia]).
  pose proof (Zrange_forallb _ 1 16 HP height ltac:(lia)) as H.
  apply andb_true_iff in H. destruct H as [H1 H2].
  apply Z.leb_le in H1. apply Z.ltb_lt in H2.
  pose proof (Fmt_c_high (Size_byte width height) ltac:(lia)) as Hlen.
  unfold Size. rewrite write_eq. cbn [snd].
  destruct (Fmt.c (Size_byte width height)) as [|b1 [|b2 [|b3 l]]]; try discriminate.
  exists b1, b2. apply issued_app. reflexivity.
Qed.

(** C4 — Size(16, 16) packs to FF, and the frame written for it is the
    four bytes 1D 21 C3 BF, not the three bytes 1D 21 FF; Size(1, 1) packs
    to 00 and is written as 1D 21 00. *)
Theorem Size_16_16_frame :
  Size_byte 16 16 = 0xFF
  /\ issued (healthy []) (snd (Size 16 16 (healthy []))) = [[0x1D; 0x21; 0xC3; 0xBF]]
  /\ Size_byte 1 1 = 0x00
  /\ issued (healthy []) (snd (Size 1 1 (healthy []))) = [[0x1D; 0x21; 0x00]].
Proof. repeat split. Qed.

(** While both bytes of the width stay below 128, [PrintAreaWidth] writes
    the four bytes 1D 57 nl nh. *)
Lemma PrintAreaWidth_four_bytes (width : Z) (w : World) :
  0 <= width <= 65535 -> width mod 256 < 128 -> width / 256 < 128 ->
  issued w (snd (PrintAreaWidth width w)) = [[0x1D; 0x57; width mod 256; width / 256]].
Proof.
  intros Hw Hlo Hhi. unfold PrintAreaWidth, uint8.
  pose proof (Z.mod_pos_bound width 256 ltac:(lia)) as Hm.
  assert (Hd : 0 <= width / 256) by (apply Z.div_pos; lia).
  destruct (width <? 256) eqn:E.
  - apply Z.ltb_lt in E.
    rewrite write_eq. cbn [snd]. apply issued_app. cbn [wlog].
    rewrite (Z.div_small width 256) by lia.
    rewrite !Fmt_c_ascii by lia. reflexivity.
  - rewrite write_eq. cbn [snd]. apply issued_app. cbn [wlog].
    rewrite Z.rem_mod_nonneg, Z.quot_div_nonneg by lia.
    rewrite Z.mod_mod by lia.
    rewrite (Z.mod_small (width / 256)) by lia.
    rewrite !Fmt_c_ascii by lia. reflexivity.
Qed.

(** C3 — PrintAreaWidth(200) writes the five bytes 1D 57 C3 88 00, not the
    four bytes 1D 57 C8 00; PrintAreaWidth(380) writes 1D 57 7C 01. *)
Theorem PrintAreaWidth_200_frame :
  issued (healthy []) (snd (PrintAreaWidth 200 (healthy []))) =
    [[0x1D; 0x57; 0xC3; 0x88; 0x00]]
  /\ issued (healthy []) (snd (PrintAreaWidth 380 (healthy []))) =
    [[0x1D; 0x57; 0x7C; 0x01]].
Proof. split; reflexivity. Qed.

(** ** The status query *)

(** C7 — GetErrorStatus issues one write, of the bytes 10 04 02.  When the
    write fails it issues no read and returns status 0 with the error of
    the write.  Otherwise it issues one read, into a buffer of one byte:
    when the read fails it returns status 0 with the error of the read,
    and else the byte the read stored, with no error. *)
Theorem GetErrorStatus_exchange (w : World) :
  issued w (snd (GetErrorStatus w)) = [[0x10; 0x04; 0x02]] /\
  match wres w (List.length (wlog w)) with
  | Some e =>
      fst (GetErrorStatus w) = (0, Some e) /\ reads w (snd (GetErrorStatus w)) = []
  | None =>
      reads w (snd (GetErrorStatus w)) = [1%nat] /\
      match rres w (List.length (rlog w)) with
      | (_, Some e) => fst (GetErrorStatus w) = (0, Some e)
      | (dv, None) => fst (GetErrorStatus w) = (hd 0 dv, None)
      end
  end.
Proof.
  unfold GetErrorStatus, bind, check, ret, s_Write, s_Read. simpl.
  destruct (wres w (List.length (wlog w))) as [e|]; simpl.
  - split; [apply issued_app; reflexivity|].
    split; [reflexivity | unfold reads; simpl; apply skipn_all].
  - destruct (rres w (List.length (rlog w))) as [dv [e|]]; simpl;
      (split; [apply issued_app; reflexivity|]);
      (split; [apply reads_app; reflexivity|]); [reflexivity|].
    destruct dv; reflexivity.
Qed.

(** ** The double height and double width toggles *)

(** C9 — SetDoubleHeight(true) writes 1C 21 08, SetDoubleWidth(true)
    writes 1C 21 04, and both write 1C 21 00 for false; no frame of either
    toggle has both mode bits set. *)
Theorem SetDouble_frames (w : World) :
  issued w (snd (SetDoubleHeight true w)) = [[0x1C; 0x21; 0x08]]
  /\ issued w (snd (SetDoubleWidth true w)) = [[0x1C; 0x21; 0x04]]
  /\ issued w (snd (SetDoubleHeight false w)) = [[0x1C; 0x21; 0x00]]
  /\ issued w (snd (SetDoubleWidth false w)) = [[0x1C; 0x21; 0x00]]
  /\ SetDoubleHeight false w = SetDoubleWidth false w
  /\ forall (b : bool) (frame : list byte),
       In frame (issued w (snd (SetDoubleHeight b w))) \/
       In frame (issued w (snd (SetDoubleWidth b w))) ->
       List.length frame = 3%nat /\ Z.land (nth 2 frame 0) 0x0C <> 0x0C.
Proof.
  assert (H : forall bytes, issued w (snd (WriteBytes bytes w)) = [bytes]).
  { intros bytes. rewrite WriteBytes_write, write_eq. apply issued_app. reflexivity. }
  unfold SetDoubleHeight, SetDoubleWidth. cbv zeta.
  repeat (split; [apply H || reflexivity|]).
  intros b frame. destruct b; rewrite !H; cbn [In];
    intros [[<-|[]]|[<-|[]]]; split; try reflexivity; cbn; discriminate.
Qed.

(** ** The two variants of SetCharacterSet *)

(** The variant with [%d] writes the decimal digits of [n] after 1B 52;
    the variant with a byte slice writes the byte [n]: on no table index
    do the two write the same bytes. *)
Lemma SetCharacterSet_variants_differ (n : Z) (w : World) :
  0 <= n <= 255 ->
  issued w (snd (SetCharacterSet n w)) <> issued w (snd (SetCharacterSet_part_000 n w)).
Proof.
  intros Hn.
  unfold SetCharacterSet, SetCharacterSet_part_000. cbv zeta.
  rewrite WriteBytes_write, !write_eq. cbn [snd].
  rewrite (issued_app w _ [[0x1B; 0x52; n]]) by reflexivity.
  rewrite (issued_app w _ [[0x1B; 0x52] ++ Fmt.d n]) by reflexivity.
  pose (P := fun n => negb (gostring_eqb [n] (Fmt.d n))).
  assert (HP : P n = true)
    by (apply (Zrange_forallb P 0 256); [vm_compute; reflexivity | lia]).
  intros Heq. injection Heq as Heq.
  unfold P in HP. rewrite <- Heq in HP. cbn in HP.
  rewrite Z.eqb_refl in HP. discriminate.
Qed.

(** C10 — On table index 15 the two variants of SetCharacterSet write
    different bytes: 1B 52 0F from the byte slice, 1B 52 31 35 from the
    [%d] format. *)
Theorem SetCharacterSet_15_frames (w : World) :
  issued w (snd (SetCharacterSet 15 w)) = [[0x1B; 0x52; 0x0F]]
  /\ issued w (snd (SetCharacterSet_part_000 15 w)) = [[0x1B; 0x52; 0x31; 0x35]].
Proof.
  unfold SetCharacterSet, SetCharacterSet_part_000. cbv zeta.
  rewrite WriteBytes_write, !write_eq. cbn [snd].
  split; apply issued_app; reflexivity.
Qed.

(** ** Text and one-dimensional barcodes *)

Section TextFacts.

Variable Encode : list byte -> list byte * Z * option error.
Variable textReplace : gostring -> gostring.
Variable BarcodeType_id : BarcodeType -> byte.

Lemma Print_wlog (data : gostring) (w : World) :
  exists rest, wlog (snd (Print Encode textReplace data w)) = wlog w ++ rest.
Proof.
  unfold Print. destruct (gostring_eqb data []).
  - exists []. cbn. symmetry; apply app_nil_r.
  - unfold bind, check, ret, converter_Encode.
    destruct (Encode data) as [[b n] [e|]].
    + exists []. cbn. symmetry; apply app_nil_r.
    + rewrite write_eq. cbn [snd wlog]. eexists; reflexivity.
Qed.

Lemma PrintLn_wlog (data : gostring) (w : World) :
  exists rest, wlog (snd (PrintLn Encode textReplace data w)) = wlog w ++ rest.
Proof.
  unfold PrintLn, bind, check, ret.
  destruct (Print_wlog data w) as [rest Hrest].
  destruct (Print Encode textReplace data w) as [[e|] w1]; cbn [snd] in *.
  - exists rest; assumption.
  - rewrite write_eq. cbn [snd wlog]. rewrite Hrest, <- app_assoc.
    eexists; reflexivity.
Qed.

(** While the two frames of defaults are accepted, the third frame that
    [Barcode] hands to the connection is the payload frame: for CODE128
    the type, the decimal digits of the length, the payload and a null
    byte; for every other type the type, the payload and a null byte. *)
Lemma Barcode_third_frame (barcode : gostring) (format : BarcodeType) (w : World) :
  wres w (List.length (wlog w)) = None ->
  wres w (S (List.length (wlog w))) = None ->
  nth_error (issued w (snd (Barcode Encode textReplace BarcodeType_id barcode format w))) 2
  = Some (Barcode_payload BarcodeType_id barcode format).
Proof.
  intros H0 H1. unfold Barcode, bind, check, ret.
  step. rewrite H0. step.
  rewrite length_app, Nat.add_comm. cbn [List.length Nat.add]. rewrite H1.
  assert (Hthird : forall cmd w0, wlog w0 = wlog w ++ [[0x1d; 0x77; 0x04; 0x1d; 0x68; 0x64];
                                                        [0x1d; 0x66; 0x00]] ->
    nth_error (issued w (snd (let (a, w') := write cmd w0 in
      match a with
      | Some e => fun w : World => (Some e, w)
      | None => PrintLn Encode textReplace barcode
      end w'))) 2 = Some cmd).
  { intros cmd w0 Hw0. rewrite write_eq.
    destruct (wres w0 _) as [e|].
    - cbn [snd]. erewrite issued_app
        by (cbn [wlog]; rewrite Hw0, <- app_assoc; reflexivity).
      reflexivity.
    - match goal with |- context [PrintLn _ _ _ ?w1] =>
        destruct (PrintLn_wlog barcode w1) as [rest Hrest] end.
      cbn [wlog] in Hrest.
      erewrite issued_app
        by (rewrite Hrest, Hw0, <- !app_assoc; reflexivity).
      reflexivity. }
  destruct format; apply Hthird; cbn [wlog]; rewrite <- app_assoc; reflexivity.
Qed.

(** C1 — Barcode("12345678", CODE128): the payload frame carries the
    length as the decimal digit 38 and ends in a null byte; it is not
    the type, the length byte 08 and the eight payload bytes. *)
Theorem Barcode_CODE128_frame :
  nth_error (issued (healthy [])
               (snd (Barcode Encode textReplace BarcodeType_id
                             (lit "12345678") BarcodeTypeCODE128 (healthy [])))) 2
  = Some ([0x1d; 0x6b; BarcodeType_id BarcodeTypeCODE128; 0x38]
            ++ lit "12345678" ++ [0x00])
  /\ [0x1d; 0x6b; BarcodeType_id BarcodeTypeCODE128; 0x38] ++ lit "12345678" ++ [0x00]
     <> length_prefixed_frame (BarcodeType_id BarcodeTypeCODE128) (lit "12345678").
Proof.
  split.
  - rewrite Barcode_third_frame by reflexivity. reflexivity.
  - cbn. intros H. discriminate H.
Qed.

(** C8 — Print of the empty string leaves the world as it is (no write,
    no call of the converter) and returns nil. *)
Theorem Print_empty (w : World) :
  Print Encode textReplace [] w = (None, w)
  /\ issued w (snd (Print Encode textReplace [] w)) = []
  /\ elog (snd (Print Encode textReplace [] w)) = elog w.
Proof.
  split; [reflexivity|]. split; [apply issued_refl | reflexivity].
Qed.

End TextFacts.


(** ** More on the [%c] verb *)

Lemma AppendRune_one_byte (r : Z) :
  List.length (Fmt.AppendRune r) = 1%nat <-> 0 <= r <= 0x7F.
Proof.
  unfold Fmt.AppendRune.
  destruct ((0 <=? r) && (r <=? 0x7F)) eqn:E.
  - apply andb_true_iff in E. destruct E as [E1 E2].
    apply Z.leb_le in E1. apply Z.leb_le in E2.
    split; [lia | reflexivity].
  - assert (Hr : ~ 0 <= r <= 0x7F).
    { intros [H1 H2]. apply Z.leb_le in H1. apply Z.leb_le in H2.
      rewrite H1, H2 in E. discriminate. }
    repeat match goal with |- context [if ?b then _ else _] => destruct b end;
      cbn [List.length]; split; intros H; try discriminate; contradiction.
Qed.

(** On a Go [int], [%c] yields one byte exactly for the values 0 to 127. *)
Lemma Fmt_c_one_byte (v : Z) :
  - 2 ^ 63 <= v < 2 ^ 63 ->
  (List.length (Fmt.c v) = 1%nat <-> 0 <= v < 128).
Proof.
  change (2 ^ 63) with 9223372036854775808. intros Hv.
  unfold Fmt.c. cbv zeta. change (2 ^ 64) with 18446744073709551616.
  assert (Hu : v mod 18446744073709551616 = v \/
               (v < 0 /\ v mod 18446744073709551616 = v + 18446744073709551616)).
  { destruct (Z_lt_le_dec v 0) as [Hneg|Hpos].
    - right. split; [assumption|]. symmetry.
      apply Z.mod_unique with (q := -1); lia.
    - left. apply Z.mod_small. lia. }
  destruct (Fmt.MaxRune <? v mod 18446744073709551616) eqn:E.
  - apply Z.ltb_lt in E. unfold Fmt.MaxRune in E.
    split; [intros H; discriminate H | intros H; exfalso].
    destruct Hu as [Hu|[Hneg Hu]]; lia.
  - apply Z.ltb_ge in E. unfold Fmt.MaxRune in E.
    rewrite AppendRune_one_byte.
    destruct Hu as [Hu|[Hneg Hu]]; rewrite Hu in *; lia.
Qed.


(** ** One write *)

Lemma write_run (cmd : gostring) (w : World) :
  fst (write cmd w) = wres w (List.length (wlog w))
  /\ issued w (snd (write cmd w)) = [cmd]
  /\ reads w (snd (write cmd w)) = []
  /\ elog (snd (write cmd w)) = elog w.
Proof.
  rewrite write_eq. cbn [fst snd elog].
  split; [reflexivity|]. split; [apply issued_app; reflexivity|].
  split; [unfold reads; cbn [rlog]; apply skipn_all | reflexivity].
Qed.

(** ** Init and the directives with one parameter *)

(** X1 - Init writes 1B 40 and, only when that write is accepted, 1B 74 28;
    it returns the error of the first write that failed, else nil.  SetInit
    is the first step alone. *)
Theorem Init_sequence (w : World) :
  issued w (snd (SetInit w)) = [[0x1B; 0x40]]
  /\ match wres w (List.length (wlog w)) with
     | Some e =>
         fst (Init w) = Some e /\ Init w = SetInit w
     | None =>
         fst (Init w) = wres w (S (List.length (wlog w)))
         /\ issued w (snd (Init w)) = [[0x1B; 0x40]; [0x1B; 0x74; 0x28]]
     end.
Proof.
  unfold SetInit, Init, bind, check, ret. cbv zeta.
  rewrite WriteBytes_write, !write_eq. cbn [fst snd].
  split; [apply issued_app; reflexivity|].
  destruct (wres w (List.length (wlog w))) as [e|].
  - split; reflexivity.
  - rewrite write_eq. cbn [fst snd wlog wres].
    rewrite length_app, Nat.add_comm. cbn [List.length Nat.add].
    split; [reflexivity|].
    apply issued_app. rewrite <- app_assoc. reflexivity.
Qed.

(** X2 - Feed(n) issues one write.  For n from 0 to 127 its frame is the
    three bytes 1B 64 n; for every other int the frame is not three bytes
    long. *)
Theorem Feed_frame (n : Z) (w : World) (Hint : - 2 ^ 63 <= n < 2 ^ 63) :
  fst (Feed n w) = wres w (List.length (wlog w))
  /\ exists frame,
       issued w (snd (Feed n w)) = [frame]
       /\ (0 <= n < 128 -> frame = [0x1B; 0x64; n])
       /\ (List.length frame = 3%nat <-> 0 <= n < 128).
Proof.
  unfold Feed. destruct (write_run ([0x1B; 0x64] ++ Fmt.c n) w) as (Hr & Hi & _).
  split; [exact Hr|].
  exists ([0x1B; 0x64] ++ Fmt.c n). split; [exact Hi|]. split.
  - intros Hn. rewrite Fmt_c_ascii by assumption. reflexivity.
  - rewrite <- (Fmt_c_one_byte n Hint). cbn [app List.length]. split; lia.
Qed.

Lemma Feed_frame_witness :
  - 2 ^ 63 <= 3 < 2 ^ 63
  /\ exists frame,
       issued (healthy []) (snd (Feed 3 (healthy []))) = [frame]
       /\ (0 <= 3 < 128 -> frame = [0x1B; 0x64; 3])
       /\ (List.length frame = 3%nat <-> 0 <= 3 < 128).
Proof.
  assert (H : - 2 ^ 63 <= 3 < 2 ^ 63) by (split; [discriminate | reflexivity]).
  split; [exact H|]. exact (proj2 (Feed_frame 3 (healthy []) H)).
Defined.

(** X3 - Font(f) and Align(a) with a code from 0 to 127 each issue one
    write, of the three bytes 1B 4D f and 1B 61 a. *)
Theorem Font_Align_frames (font align : byte) (w : World)
  (Hf : 0 <= font < 128) (Ha : 0 <= align < 128) :
  issued w (snd (Font font w)) = [[0x1B; 0x4D; font]]
  /\ issued w (snd (Align align w)) = [[0x1B; 0x61; align]]
  /\ fst (Font font w) = wres w (List.length (wlog w))
  /\ fst (Align align w) = wres w (List.length (wlog w)).
Proof.
  unfold Font, Align. rewrite !Fmt_c_ascii by assumption.
  repeat split; apply write_run.
Qed.

Lemma Font_Align_frames_witness :
  0 <= 1 < 128 /\ 0 <= 2 < 128
  /\ issued (healthy []) (snd (Font 1 (healthy []))) = [[0x1B; 0x4D; 1]]
  /\ issued (healthy []) (snd (Align 2 (healthy []))) = [[0x1B; 0x61; 2]].
Proof.
  assert (H1 : 0 <= 1 < 128) by (split; [discriminate | reflexivity]).
  assert (H2 : 0 <= 2 < 128) by (split; [discriminate | reflexivity]).
  split; [exact H1|]. split; [exact H2|].
  destruct (Font_Align_frames 1 2 (healthy []) H1 H2) as (Hf & Ha & _).
  split; [exact Hf | exact Ha].
Defined.

(** X4 - Underline, Smooth, SetUnderline and SetBold each issue one write of
    three bytes, the last one 1 for true and 0 for false, after the
    prefixes 1B 2D, 1D 62, 1C 2D and 1B 45; each returns what the
    connection answered to that write. *)
Theorem toggle_frames (enabled : bool) (w : World) :
  let flag := if enabled then 1 else 0 in
  issued w (snd (Underline enabled w)) = [[0x1B; 0x2D; flag]]
  /\ issued w (snd (Smooth enabled w)) = [[0x1D; 0x62; flag]]
  /\ issued w (snd (SetUnderline enabled w)) = [[0x1C; 0x2D; flag]]
  /\ issued w (snd (SetBold enabled w)) = [[0x1B; 0x45; flag]]
  /\ fst (Underline enabled w) = wres w (List.length (wlog w))
  /\ fst (Smooth enabled w) = wres w (List.length (wlog w))
  /\ fst (SetUnderline enabled w) = wres w (List.length (wlog w))
  /\ fst (SetBold enabled w) = wres w (List.length (wlog w)).
Proof.
  unfold Underline, Smooth, SetUnderline, SetBold. cbv zeta.
  destruct enabled; rewrite ?WriteBytes_write;
    repeat split; apply write_run.
Qed.

(** ** Write deadlines *)

(** X5 - Each call of WriteBytes sets one write deadline when the printer
    holds a file handle and none when it does not, issues one write, of
    the bytes given, and returns the result of that write; GetErrorStatus
    sets no deadline, with or without a file handle. *)
Theorem deadline_discipline (data : list byte) (w : World) :
  dlog (snd (WriteBytes data w)) = (if has_f w then S (dlog w) else dlog w)
  /\ issued w (snd (WriteBytes data w)) = [data]
  /\ fst (WriteBytes data w) = wres w (List.length (wlog w))
  /\ dlog (snd (GetErrorStatus w)) = dlog w.
Proof.
  rewrite WriteBytes_write.
  destruct (write_run data w) as (Hr & Hi & _).
  split; [rewrite write_eq; reflexivity|].
  split; [exact Hi|]. split; [exact Hr|].
  unfold GetErrorStatus, bind, check, ret, s_Write, s_Read. simpl.
  destruct (wres w (List.length (wlog w))); simpl; [reflexivity|].
  destruct (rres w (List.length (rlog w))) as [dv [e|]]; reflexivity.
Qed.

(** ** Chinese text *)

Section ChineseFacts.

Variable gbkBytes : list byte -> list byte * Z * option error.

(** X6 - WriteChineseString writes nothing and returns the encoder's error
    when the GBK encoder rejects the text; otherwise it issues one write,
    of the encoded bytes, and returns its result.  There is no short cut
    for the empty string, and the package's character converter is never
    called. *)
Theorem WriteChineseString_run (str : gostring) (w : World) :
  elog (snd (WriteChineseString gbkBytes str w)) = elog w
  /\ match gbkBytes str with
     | (_, _, Some e) =>
         WriteChineseString gbkBytes str w = (Some e, w)
     | (result, _, None) =>
         issued w (snd (WriteChineseString gbkBytes str w)) = [result]
         /\ fst (WriteChineseString gbkBytes str w) = wres w (List.length (wlog w))
     end.
Proof.
  unfold WriteChineseString, bind, check, ret.
  destruct (gbkBytes str) as [[result n] [e|]].
  - split; reflexivity.
  - rewrite WriteBytes_write, write_eq. cbn [fst snd elog].
    split; [reflexivity|]. split; [apply issued_app; reflexivity | reflexivity].
Qed.

End ChineseFacts.

(** ** Printing text *)

Section PrintFacts.

Variable Encode : list byte -> list byte * Z * option error.
Variable textReplace : gostring -> gostring.
Variable BarcodeType_id : BarcodeType -> byte.

Lemma gostring_eqb_nil (data : gostring) :
  data <> [] -> gostring_eqb data [] = false.
Proof. destruct data; [contradiction | reflexivity]. Qed.

(** X7 - Print of a non-empty text that the converter rejects calls the
    converter once, writes nothing and returns the converter's error. *)
Theorem Print_conversion_error
  (data b : gostring) (n : Z) (e : error) (w : World)
  (Hdata : data <> []) (Henc : Encode data = (b, n, Some e)) :
  fst (Print Encode textReplace data w) = Some e
  /\ issued w (snd (Print Encode textReplace data w)) = []
  /\ elog (snd (Print Encode textReplace data w)) = elog w ++ [data].
Proof.
  unfold Print. rewrite gostring_eqb_nil by assumption.
  unfold bind, check, ret, converter_Encode. rewrite Henc. cbn [fst snd elog].
  split; [reflexivity|]. split; [|reflexivity].
  unfold issued. cbn [wlog]. apply skipn_all.
Qed.

(** X8 - Print of a non-empty text that the converter accepts calls the
    converter once, issues one write, of the converted bytes after the
    substitution pass, and returns the result of that write. *)
Theorem Print_converted
  (data b : gostring) (n : Z) (w : World)
  (Hdata : data <> []) (Henc : Encode data = (b, n, None)) :
  fst (Print Encode textReplace data w) = wres w (List.length (wlog w))
  /\ issued w (snd (Print Encode textReplace data w)) = [textReplace b]
  /\ elog (snd (Print Encode textReplace data w)) = elog w ++ [data].
Proof.
  unfold Print. rewrite gostring_eqb_nil by assumption.
  unfold bind, check, ret, converter_Encode. rewrite Henc. cbv zeta.
  rewrite write_eq. cbn [fst snd wlog elog wres].
  split; [reflexivity|]. split; [|reflexivity].
  apply issued_app. reflexivity.
Qed.

(** X9 - PrintLn is Print followed by one write of the newline byte 0A.
    When Print returns an error PrintLn stops there: the two calls leave
    the same world and return the same error. *)
Theorem PrintLn_fail_fast (data : gostring) (w : World) :
  match fst (Print Encode textReplace data w) with
  | Some e => PrintLn Encode textReplace data w = Print Encode textReplace data w
  | None =>
      let w1 := snd (Print Encode textReplace data w) in
      wlog (snd (PrintLn Encode textReplace data w)) = wlog w1 ++ [[0x0A]]
      /\ fst (PrintLn Encode textReplace data w) = wres w1 (List.length (wlog w1))
  end.
Proof.
  unfold PrintLn, bind, check, ret.
  destruct (Print Encode textReplace data w) as [[e|] w1]; cbn [fst snd].
  - reflexivity.
  - rewrite write_eq. split; reflexivity.
Qed.

(** X10 - PrintLn of the empty string is PrintLine: one write of the byte
    0A, no call of the converter, the same result and the same world. *)
Theorem PrintLn_empty (w : World) :
  PrintLn Encode textReplace [] w = PrintLine w
  /\ issued w (snd (PrintLn Encode textReplace [] w)) = [[0x0A]]
  /\ elog (snd (PrintLn Encode textReplace [] w)) = elog w.
Proof.
  assert (H : PrintLn Encode textReplace [] w = write [0x0A] w) by reflexivity.
  rewrite H. split; [reflexivity|].
  destruct (write_run [0x0A] w) as (_ & Hi & _ & He).
  split; assumption.
Qed.

(** X11 - Barcode stops at the first write that fails and returns its
    error: after a failed first write nothing else is written, after a
    failed second write the payload frame is not written, and after a
    failed payload frame the text line is not printed (the converter is
    not called).  When the three writes are accepted, Barcode goes on as
    PrintLn of the payload does. *)
Theorem Barcode_fail_fast (barcode : gostring) (format : BarcodeType) (w : World) :
  let run := Barcode Encode textReplace BarcodeType_id barcode format w in
  let n := List.length (wlog w) in
  let f1 := [0x1d; 0x77; 0x04; 0x1d; 0x68; 0x64] in
  let f2 := [0x1d; 0x66; 0x00] in
  let f3 := Barcode_payload BarcodeType_id barcode format in
  match wres w n with
  | Some e => fst run = Some e /\ issued w (snd run) = [f1] /\ elog (snd run) = elog w
  | None =>
      match wres w (S n) with
      | Some e => fst run = Some e /\ issued w (snd run) = [f1; f2]
                  /\ elog (snd run) = elog w
      | None =>
          match wres w (S (S n)) with
          | Some e => fst run = Some e /\ issued w (snd run) = [f1; f2; f3]
                      /\ elog (snd run) = elog w
          | None =>
              exists w3, wlog w3 = wlog w ++ [f1; f2; f3] /\ elog w3 = elog w
                         /\ rlog w3 = rlog w /\ wres w3 = wres w
                         /\ run = PrintLn Encode textReplace barcode w3
          end
      end
  end.
Proof.
  cbv zeta. unfold Barcode, bind, check, ret.
  step. destruct (wres w (List.length (wlog w))) as [e|].
  { cbn [fst snd elog]. split; [reflexivity|].
    split; [apply issued_app; reflexivity | reflexivity]. }
  step. rewrite length_app, Nat.add_comm. cbn [List.length Nat.add].
  destruct (wres w (S (List.length (wlog w)))) as [e|].
  { cbn [fst snd elog]. split; [reflexivity|].
    split; [apply issued_app; cbn [wlog]; rewrite <- app_assoc; reflexivity
           | reflexivity]. }
  assert (Hpay : forall cmd,
    let r := (let (a, w') := write cmd
                 (mkWorld ((wlog w ++ [[0x1d; 0x77; 0x04; 0x1d; 0x68; 0x64]])
                             ++ [[0x1d; 0x66; 0x00]])
                          (rlog w)
                          (if has_f w
                           then S (if has_f w then S (dlog w) else dlog w)
                           else if has_f w then S (dlog w) else dlog w)
                          (elog w) (has_f w) (wres w) (rres w)) in
              match a with
              | Some e => fun w : World => (Some e, w)
              | None => PrintLn Encode textReplace barcode
              end w') in
    match wres w (S (S (List.length (wlog w)))) with
    | Some e => fst r = Some e
                /\ issued w (snd r) = [[0x1d; 0x77; 0x04; 0x1d; 0x68; 0x64];
                                       [0x1d; 0x66; 0x00]; cmd]
                /\ elog (snd r) = elog w
    | None => exists w3,
        wlog w3 = wlog w ++ [[0x1d; 0x77; 0x04; 0x1d; 0x68; 0x64];
                             [0x1d; 0x66; 0x00]; cmd]
        /\ elog w3 = elog w /\ rlog w3 = rlog w /\ wres w3 = wres w
        /\ r = PrintLn Encode textReplace barcode w3
    end).
  { intros cmd. cbv zeta. step.
    rewrite !length_app. cbn [List.length].
    replace (List.length (wlog w) + 1 + 1)%nat with (S (S (List.length (wlog w))))
      by lia.
    destruct (wres w (S (S (List.length (wlog w))))) as [e|].
    - cbn [fst snd elog]. split; [reflexivity|].
      split; [apply issued_app; cbn [wlog]; rewrite <- !app_assoc; reflexivity
             | reflexivity].
    - eexists. split; [|split; [|split; [|split; [|reflexivity]]]];
        cbn [wlog elog rlog wres]; rewrite <- ?app_assoc; reflexivity. }
  destruct format; apply Hpay.
Qed.

(** X12 - For each of the seven null-terminated types, on a connection
    that accepts the two frames of defaults, the third frame Barcode
    issues is 1D 6B, the type's identifier, the payload and one null
    byte. *)
Theorem Barcode_null_terminated
  (barcode : gostring) (format : BarcodeType) (w : World)
  (Hformat : format <> BarcodeTypeCODE128)
  (H0 : wres w (List.length (wlog w)) = None)
  (H1 : wres w (S (List.length (wlog w))) = None) :
  nth_error (issued w (snd (Barcode Encode textReplace BarcodeType_id barcode format w))) 2
  = Some ([0x1d; 0x6b; BarcodeType_id format] ++ barcode ++ [0x00]).
Proof.
  rewrite Barcode_third_frame by assumption.
  destruct format; try reflexivity; contradiction.
Qed.

End PrintFacts.

Lemma Print_conversion_error_witness :
  lit "A" <> [] /\ reject_bytes unsupported (lit "A") = ([], 0, Some unsupported)
  /\ fst (Print (reject_bytes unsupported) (fun t => t) (lit "A") (healthy []))
     = Some unsupported
  /\ issued (healthy [])
            (snd (Print (reject_bytes unsupported) (fun t => t) (lit "A") (healthy [])))
     = [].
Proof.
  assert (H1 : lit "A" <> []) by discriminate.
  assert (H2 : reject_bytes unsupported (lit "A") = ([], 0, Some unsupported))
    by reflexivity.
  split; [exact H1|]. split; [exact H2|].
  destruct (Print_conversion_error (reject_bytes unsupported) (fun t => t)
              (lit "A") [] 0 unsupported (healthy []) H1 H2) as (Hr & Hi & _).
  split; [exact Hr | exact Hi].
Defined.

Lemma Print_converted_witness :
  lit "A" <> [] /\ keep_bytes (lit "A") = (lit "A", 1, None)
  /\ issued (healthy []) (snd (Print keep_bytes (fun t => t) (lit "A") (healthy [])))
     = [[0x41]].
Proof.
  assert (H1 : lit "A" <> []) by discriminate.
  assert (H2 : keep_bytes (lit "A") = (lit "A", 1, None)) by reflexivity.
  split; [exact H1|]. split; [exact H2|].
  exact (proj1 (proj2 (Print_converted keep_bytes (fun t => t)
                         (lit "A") (lit "A") 1 (healthy []) H1 H2))).
Defined.

Lemma Barcode_null_terminated_witness :
  BarcodeTypeEAN8 <> BarcodeTypeCODE128
  /\ wres (healthy []) (List.length (wlog (healthy []))) = None
  /\ wres (healthy []) (S (List.length (wlog (healthy [])))) = None
  /\ nth_error (issued (healthy [])
                  (snd (Barcode keep_bytes (fun t => t) escpos_id
                                (lit "12345678") BarcodeTypeEAN8 (healthy [])))) 2
     = Some [0x1d; 0x6b; 0x03; 0x31; 0x32; 0x33; 0x34; 0x35; 0x36; 0x37; 0x38; 0x00].
Proof.
  assert (H1 : BarcodeTypeEAN8 <> BarcodeTypeCODE128) by discriminate.
  split; [exact H1|]. split; [reflexivity|]. split; [reflexivity|].
  exact (Barcode_null_terminated keep_bytes (fun t => t) escpos_id
           (lit "12345678") BarcodeTypeEAN8 (healthy []) H1 eq_refl eq_refl).
Defined.

(** ** More on two-dimensional symbols *)


(** X13 - The 2D builder never returns an error, and what it writes does
    not depend on the connection: on any two connections, whatever they
    answer, it issues the same writes, four for QR and three for any other
    symbology. *)
Theorem twodimensionBarcode_blind
  (codetype code : gostring) (size : Z) (w1 w2 : World) :
  fst (twodimensionBarcode codetype code size w1) = None
  /\ issued w1 (snd (twodimensionBarcode codetype code size w1))
     = issued w2 (snd (twodimensionBarcode codetype code size w2))
  /\ List.length (issued w1 (snd (twodimensionBarcode codetype code size w1)))
     = (if gostring_eqb codetype [0x31] then 4%nat else 3%nat).
Proof.
  destruct (twodimensionBarcode_run codetype code size w1) as [Hn H1].
  destruct (twodimensionBarcode_run codetype code size w2) as [_ H2].
  split; [exact Hn|]. split; [rewrite H1, H2; reflexivity|].
  apply twodimensionBarcode_count.
Qed.

(** X14 - For a payload of at most 124 bytes the store sub-frame carries
    payload length + 3 in one low byte followed by a zero high byte, and
    the writes are the size sub-frame, for QR the error-correction
    sub-frame, the store sub-frame and the print sub-frame. *)
Theorem twodimensionBarcode_short_payload
  (codetype code : gostring) (size : Z) (w : World)
  (Hlen : len code <= 124) :
  issued w (snd (twodimensionBarcode codetype code size w)) =
    [size_frame codetype (clamp_size size)]
    ++ (if gostring_eqb codetype [0x31] then [ecc_frame codetype] else [])
    ++ [twoDbar ++ [len code + 3; 0x00] ++ codetype ++ [0x50; 0x30] ++ code;
        print_frame codetype].
Proof.
  assert (Hn : 0 <= len code) by (unfold len; lia).
  rewrite twodimensionBarcode_store_frame.
  - unfold store_frame, le16.
    rewrite Z.mod_small, Z.div_small by lia. reflexivity.
  - rewrite Z.mod_small by lia. lia.
  - rewrite Z.div_small by lia. lia.
Qed.

Lemma twodimensionBarcode_short_payload_witness :
  len (lit "AB") <= 124
  /\ issued (healthy []) (snd (PDF417 (lit "AB") 4 (healthy []))) =
     [[0x1d; 0x28; 0x6b; 0x03; 0x00; 0x30; 0x43; 0x04];
      [0x1d; 0x28; 0x6b; 0x05; 0x00; 0x30; 0x50; 0x30; 0x41; 0x42];
      [0x1d; 0x28; 0x6b; 0x03; 0x00; 0x30; 0x51; 0x30; 0x0A]].
Proof.
  assert (H : len (lit "AB") <= 124) by discriminate.
  split; [exact H|].
  exact (twodimensionBarcode_short_payload [0x30] (lit "AB") 4 (healthy []) H).
Defined.


(** X16 - Whatever size is passed, the size byte the builder writes lies
    between 2 and 16. *)
Theorem twodimensionBarcode_size_in_range
  (codetype code : gostring) (size : Z) (w : World) :
  exists s, 2 <= s <= 16
            /\ nth_error (issued w (snd (twodimensionBarcode codetype code size w))) 0
               = Some (twoDbar ++ [0x03; 0x00] ++ codetype ++ [0x43; s]).
Proof.
  exists (clamp_size size). split; [apply clamp_size_range|].
  apply twodimensionBarcode_size_frame.
Qed.

(** ** More on Size and PrintAreaWidth *)

(** X17 - For a width in [0, 65535] whose low and high bytes are both
    below 128, PrintAreaWidth issues one write, of the four bytes 1D 57,
    width mod 256, width div 256. *)
Theorem PrintAreaWidth_low_bytes (width : Z) (w : World)
  (Hw : 0 <= width <= 65535) (Hlo : width mod 256 < 128) (Hhi : width / 256 < 128) :
  issued w (snd (PrintAreaWidth width w)) = [[0x1D; 0x57; width mod 256; width / 256]].
Proof. apply PrintAreaWidth_four_bytes; assumption. Qed.

Lemma PrintAreaWidth_low_bytes_witness :
  0 <= 380 <= 65535 /\ 380 mod 256 < 128 /\ 380 / 256 < 128
  /\ issued (healthy []) (snd (PrintAreaWidth 380 (healthy []))) = [[0x1D; 0x57; 0x7C; 0x01]].
Proof.
  assert (H1 : 0 <= 380 <= 65535) by (split; discriminate).
  assert (H2 : 380 mod 256 < 128) by reflexivity.
  assert (H3 : 380 / 256 < 128) by reflexivity.
  split; [exact H1|]. split; [exact H2|]. split; [exact H3|].
  exact (PrintAreaWidth_low_bytes 380 (healthy []) H1 H2 H3).
Defined.

(** X18 - For a width from 1 to 8 and a height from 1 to 16, Size issues
    one write, of the three bytes 1D 21 and ((width-1)<<4)|(height-1). *)
Theorem Size_narrow_frame (width height : Z) (w : World)
  (Hw : 1 <= width <= 8) (Hh : 1 <= height <= 16) :
  issued w (snd (Size width height w))
  = [[0x1D; 0x21; Z.lor (Z.shiftl (width - 1) 4) (height - 1)]].
Proof.
  rewrite Size_three_bytes by assumption.
  rewrite Size_byte_packs by lia. reflexivity.
Qed.

Lemma Size_narrow_frame_witness :
  1 <= 2 <= 8 /\ 1 <= 3 <= 16
  /\ issued (healthy []) (snd (Size 2 3 (healthy []))) = [[0x1D; 0x21; 0x12]].
Proof.
  assert (H1 : 1 <= 2 <= 8) by (split; discriminate).
  assert (H2 : 1 <= 3 <= 16) by (split; discriminate).
  split; [exact H1|]. split; [exact H2|].
  exact (Size_narrow_frame 2 3 (healthy []) H1 H2).
Defined.

(** X19 - For a width and a height from 1 to 16 the packed byte of Size is
    a byte, and width - 1 and height - 1 are read back from its high and
    low four bits. *)
Theorem Size_byte_unpacks (width height : Z)
  (Hw : 1 <= width <= 16) (Hh : 1 <= height <= 16) :
  0 <= Size_byte width height < 256
  /\ Z.shiftr (Size_byte width height) 4 = width - 1
  /\ Z.land (Size_byte width height) 0x0F = height - 1.
Proof.
  pose (Q := fun w h => let b := Size_byte w h in
                        (0 <=? b) && (b <? 256)
                        && (Z.shiftr b 4 =? w - 1) && (Z.land b 0x0F =? h - 1)).
  pose (P := fun w => forallb (Q w) (Zrange 1 16)).
  assert (HP : P width = true)
    by (apply (Zrange_forallb P 1 16); [vm_compute; reflexivity | lia]).
  pose proof (Zrange_forallb _ 1 16 HP height ltac:(lia)) as H.
  unfold Q in H. cbv zeta in H.
  apply andb_true_iff in H. destruct H as [H H4].
  apply andb_true_iff in H. destruct H as [H H3].
  apply andb_true_iff in H. destruct H as [H1 H2].
  apply Z.leb_le in H1. apply Z.ltb_lt in H2.
  apply Z.eqb_eq in H3. apply Z.eqb_eq in H4.
  repeat split; assumption.
Qed.

Lemma Size_byte_unpacks_witness :
  1 <= 16 <= 16 /\ 1 <= 16 <= 16
  /\ Z.shiftr (Size_byte 16 16) 4 = 15 /\ Z.land (Size_byte 16 16) 0x0F = 15.
Proof.
  assert (H : 1 <= 16 <= 16) by (split; discriminate).
  split; [exact H|]. split; [exact H|].
  exact (proj2 (Size_byte_unpacks 16 16 H H)).
Defined.
